(** * PowerBI-JavaScript: the embedded-object protocol layer

    A shallow embedding of [src/page.ts], [src/report.ts] and [src/tile.ts].

    The methods of [Page], [Report] and [Tile] are written in a state and
    exception monad: the state holds the receiver ([this]), the world of the
    collaborator the method talks to, and the trace of the calls made to
    that collaborator; an exception is a JavaScript [throw] (for an [async]
    method: the rejection of the promise it returns).

    One call of a method is followed from its start to the settling of its
    promise.  What the page imports and what [Report] and [Tile] inherit is
    not part of these three files: it enters as the fields of a class
    ([PageImports], [EmbedSuper]) and every property holds for every
    instance. *)

From Stdlib Require Import String List ZArith Bool Lia.
From ExtLib Require Import Structures.Monad Structures.MonadState
  Structures.MonadExc Data.Monads.StateMonad Data.Monads.EitherMonad.
Import ListNotations.
Import MonadNotation.
Local Open Scope string_scope.
Local Open Scope monad_scope.
Set Warnings "-register-all".

(** ** JavaScript values *)

(** The values that cross the postMessage channel or sit in an options
    object: primitives, arrays and plain objects.  An object keeps its
    properties in insertion order.  Numbers are integers here; no claim
    depends on arithmetic. *)
Inductive JSValue : Type :=
| JUndefined
| JNull
| JBool (b : bool)
| JNum (n : Z)
| JStr (s : string)
| JArr (elems : list JSValue)
| JObj (props : list (string * JSValue)).

(** What a [throw] (or a rejected promise) carries: a value, an object made
    by [new Error(message)], or a [TypeError] raised by the engine. *)
Inductive Thrown : Type :=
| ThrowValue (v : JSValue)
| ThrowError (message : string)
| ThrowTypeError.

(** [typeof v] *)
Definition typeof (v : JSValue) : string :=
  match v with
  | JUndefined => "undefined"
  | JNull => "object"
  | JBool _ => "boolean"
  | JNum _ => "number"
  | JStr _ => "string"
  | JArr _ => "object"
  | JObj _ => "object"
  end.

(** [ToBoolean v], the test behind [!v] and [if (v)]. *)
Definition ToBoolean (v : JSValue) : bool :=
  match v with
  | JUndefined | JNull => false
  | JBool b => b
  | JNum n => negb (Z.eqb n 0)
  | JStr s => negb (String.eqb s "")
  | JArr _ | JObj _ => true
  end.

Fixpoint lookup (k : string) (props : list (string * JSValue)) : JSValue :=
  match props with
  | [] => JUndefined
  | (k', v) :: rest => if String.eqb k k' then v else lookup k rest
  end.

(** [v.k] for the property names this code reads ([body], [name], [title],
    [type], [layout]): none of them is defined on the prototype of a
    primitive or of an array, so the access yields [undefined] there.
    [None] is the [TypeError] of a property access on [undefined] or
    [null]. *)
Definition getProp (v : JSValue) (k : string) : option JSValue :=
  match v with
  | JUndefined | JNull => None
  | JObj props => Some (lookup k props)
  | JBool _ | JNum _ | JStr _ | JArr _ => Some JUndefined
  end.

(** [e.k] where [e] is the value bound by a [catch] clause.  An [Error]
    object has no [body] property. *)
Definition caughtProp (e : Thrown) (k : string) : option JSValue :=
  match e with
  | ThrowValue v => getProp v k
  | ThrowError _ | ThrowTypeError => Some JUndefined
  end.

(** [undefined] and [null]: the values without properties. *)
Definition nullish (v : JSValue) : bool :=
  match v with
  | JUndefined | JNull => true
  | _ => false
  end.

(** ** Methods as computations *)

(** [St -> (Thrown + A) * St]: the state survives a [throw]. *)
Definition Method (St : Type) : Type -> Type := eitherT Thrown (state St).

Definition run {St A : Type} (m : Method St A) (st : St) : (Thrown + A) * St :=
  runState (unEitherT m) st.

(** [o.k] inside a method. *)
Definition prop {St : Type} (o : option JSValue) : Method St JSValue :=
  match o with
  | Some v => ret v
  | None => raise ThrowTypeError
  end.

(** ** The postMessage channel ([http-post-message]) *)

Definition Window : Type := nat.

(** The calls this code makes on [report.service.hpm]. *)
Inductive HpmCall : Type :=
| hpm_get (url : string) (headers : JSValue) (targetWindow : Window)
| hpm_put (url : string) (body : JSValue) (headers : JSValue) (targetWindow : Window)
| hpm_delete (url : string) (body : JSValue) (headers : JSValue) (targetWindow : Window).

(** How the promise returned by the channel settles. *)
Inductive Settled : Type :=
| Resolved (response : JSValue)
| Rejected (response : JSValue).

(** What [page.ts] imports and does not define: the channel, whose world
    [World] it cannot see; [utils.isRDLEmbed]; [errors.APINotSupportedForRDLError];
    and the text that [models.LayoutType[layoutType]] contributes to a
    template literal. *)
Class PageImports : Type := {
  World : Type;
  hpm : HpmCall -> World -> Settled * World;
  isRDLEmbed : string -> bool;
  APINotSupportedForRDLError : JSValue;
  LayoutType : JSValue -> string
}.

(** ** Report nodes, pages and visual descriptors *)

Record IEmbedConfiguration : Type := {
  uniqueId : string;
  embedUrl : string
}.

Record HTMLIFrameElement : Type := {
  contentWindow : Window
}.

(** [IReportNode]; its [service.hpm] is the channel of [PageImports]. *)
Record IReportNode : Type := {
  iframe : HTMLIFrameElement;
  config : IEmbedConfiguration
}.

Module Page.

(** The fields of [class Page].  The constructor's optional arguments may
    be [undefined]. *)
Record Page : Type := {
  report : IReportNode;
  name : string;
  displayName : JSValue;
  isActive : JSValue;
  visibility : JSValue;
  defaultSize : JSValue;
  defaultDisplayOption : JSValue
}.

(** [constructor(report, name, displayName?, isActivePage?, visibility?,
    defaultSize?, defaultDisplayOption?)]: each argument is stored in the
    field of its name; an argument left out is [undefined]. *)
Definition constructor (report : IReportNode) (name : string)
    (displayName isActivePage visibility defaultSize defaultDisplayOption : JSValue)
  : Page :=
  {| report := report;
     name := name;
     displayName := displayName;
     isActive := isActivePage;
     visibility := visibility;
     defaultSize := defaultSize;
     defaultDisplayOption := defaultDisplayOption |}.

End Page.

Module VisualDescriptor.

(** Modelled from the spec: [class VisualDescriptor] lives in
    [visualDescriptor.ts], which is not among the sources.  The spec has
    it carry the owning page, [name], [title], [type] and [layout];
    [new VisualDescriptor(page, name, title, type, layout)] stores its
    arguments. *)
Record VisualDescriptor : Type := {
  page : Page.Page;
  name : JSValue;
  title : JSValue;
  type : JSValue;
  layout : JSValue
}.

End VisualDescriptor.

Module PageMethods.
Import Page.

(** The state a [Page] method runs in. *)
Record PageState `{PageImports} : Type := {
  this : Page;
  world : World;
  requests : list HpmCall
}.

Section Methods.
Context `{PageImports}.

(** [await this.report.service.hpm.get/put/delete(...)]: the call is
    added to the trace, the channel moves to its next world, and the
    computation goes on with the response or throws the rejection.  The
    channel is handed a route, a payload, headers and a window, never the
    page: it works on its own world. *)
Definition await (call : HpmCall) : Method PageState JSValue :=
  st <- get ;;
  let (settled, world') := hpm call (world st) in
  put {| this := this st; world := world'; requests := requests st ++ [call] |} ;;
  match settled with
  | Resolved response => ret response
  | Rejected response => raise (ThrowValue response)
  end.

(** [{ uid: this.report.config.uniqueId }] *)
Definition uid (this : Page) : JSValue :=
  JObj [("uid", JStr (uniqueId (config (report this))))].

(** [this.report.iframe.contentWindow] *)
Definition target (this : Page) : Window :=
  contentWindow (iframe (report this)).

(** [catch (response) { throw response.body; }] *)
Definition throwBody {A : Type} (response : Thrown) : Method PageState A :=
  body <- prop (caughtProp response "body") ;;
  raise (ThrowValue body).

Definition getFilters : Method PageState JSValue :=
  catch
    (this <- gets this ;;
     response <- await (hpm_get ("/report/pages/" ++ name this ++ "/filters")
                                (uid this) (target this)) ;;
     prop (getProp response "body"))
    throwBody.

Definition delete : Method PageState JSValue :=
  catch
    (this <- gets this ;;
     response <- await (hpm_delete ("/report/pages/" ++ name this)
                                   (JObj []) (uid this) (target this)) ;;
     prop (getProp response "body"))
    throwBody.

Definition setFilters (filters : JSValue) : Method PageState JSValue :=
  catch
    (this <- gets this ;;
     await (hpm_put ("/report/pages/" ++ name this ++ "/filters")
                    filters (uid this) (target this)))
    throwBody.

Definition removeFilters : Method PageState JSValue :=
  response <- setFilters (JArr []) ;;
  ret response.

Definition setActive : Method PageState JSValue :=
  this <- gets this ;;
  let page := JObj [("name", JStr (name this));
                    ("displayName", JNull);
                    ("isActive", JBool true)] in
  catch
    (this <- gets PageMethods.this ;;
     await (hpm_put "/report/pages/active" page (uid this) (target this)))
    throwBody.

Definition setDisplayName (displayName : string) : Method PageState JSValue :=
  this <- gets this ;;
  let page := JObj [("name", JStr (name this));
                    ("displayName", JStr displayName)] in
  catch
    (this <- gets PageMethods.this ;;
     await (hpm_put ("/report/pages/" ++ name this ++ "/name")
                    page (uid this) (target this)))
    throwBody.

(** [new VisualDescriptor(this, visual.name, visual.title, visual.type,
    visual.layout)], the body of the arrow function given to [map]. *)
Definition newVisualDescriptor (this : Page) (visual : JSValue)
  : Method PageState VisualDescriptor.VisualDescriptor :=
  name <- prop (getProp visual "name") ;;
  title <- prop (getProp visual "title") ;;
  type <- prop (getProp visual "type") ;;
  layout <- prop (getProp visual "layout") ;;
  ret {| VisualDescriptor.page := this;
         VisualDescriptor.name := name;
         VisualDescriptor.title := title;
         VisualDescriptor.type := type;
         VisualDescriptor.layout := layout |}.

Fixpoint mapM {A B : Type} (f : A -> Method PageState B) (l : list A)
  : Method PageState (list B) :=
  match l with
  | [] => ret []
  | x :: rest => y <- f x ;; ys <- mapM f rest ;; ret (y :: ys)
  end.

(** [body.map(f)]: a value that is not an array has no [map] method, and
    the call throws a [TypeError]. *)
Definition arrayMap {B : Type} (body : JSValue) (f : JSValue -> Method PageState B)
  : Method PageState (list B) :=
  match body with
  | JArr elems => mapM f elems
  | _ => raise ThrowTypeError
  end.

Definition getVisuals : Method PageState (list VisualDescriptor.VisualDescriptor) :=
  this <- gets this ;;
  if isRDLEmbed (embedUrl (config (report this))) then
    raise (ThrowValue APINotSupportedForRDLError)
  else
    catch
      (this <- gets PageMethods.this ;;
       response <- await (hpm_get ("/report/pages/" ++ name this ++ "/visuals")
                                  (uid this) (target this)) ;;
       body <- prop (getProp response "body") ;;
       this <- gets PageMethods.this ;;
       arrayMap body (newVisualDescriptor this))
      throwBody.

Definition hasLayout (layoutType : JSValue) : Method PageState JSValue :=
  this <- gets this ;;
  if isRDLEmbed (embedUrl (config (report this))) then
    raise (ThrowValue APINotSupportedForRDLError)
  else
    let layoutTypeEnum := LayoutType layoutType in
    catch
      (this <- gets PageMethods.this ;;
       response <- await (hpm_get ("/report/pages/" ++ name this
                                     ++ "/layoutTypes/" ++ layoutTypeEnum)
                                  (uid this) (target this)) ;;
       prop (getProp response "body"))
      throwBody.

End Methods.
End PageMethods.

(** ** Embeds: reports and tiles *)

Module Embed.

(** Modelled from the spec: [interface IEmbedOptions] is declared in
    [embed.ts], which is not among the sources.  The fields are those of
    the spec's data model; each is optional, so each may be [undefined]. *)
Record IEmbedOptions : Type := {
  id : JSValue;
  type : JSValue;
  embedUrl : JSValue;
  accessToken : JSValue;
  filterPaneEnabled : JSValue
}.

(** What [report.ts] and [tile.ts] inherit from [class Embed] and do not
    define: [super.getEmbedUrl()] and [super.load(options, requireId,
    message)].  Both read [this.options] (their first argument here) and
    act on the rest of the object and on what it reaches (element, iframe,
    channel): [Base].  Either may throw. *)
Class EmbedSuper : Type := {
  Base : Type;
  Embed_getEmbedUrl : IEmbedOptions -> Base -> (Thrown + string) * Base;
  Embed_load : IEmbedOptions -> IEmbedOptions -> bool -> JSValue -> Base
               -> (Thrown + unit) * Base
}.

(** The calls a subclass makes on [super]. *)
Inductive SuperCall : Type :=
| super_getEmbedUrl
| super_load (options : IEmbedOptions) (requireId : bool) (message : JSValue).

(** The state a [Report] or [Tile] method runs in: [this.options], the
    rest of the object, and the trace of the calls made on [super]. *)
Record EmbedState `{EmbedSuper} : Type := {
  options : IEmbedOptions;
  base : Base;
  calls : list SuperCall
}.

Section Super.
Context `{EmbedSuper}.

Definition outcome {A : Type} (r : Thrown + A) : Method EmbedState A :=
  match r with
  | inl e => raise e
  | inr a => ret a
  end.

(** [super.getEmbedUrl()] *)
Definition superGetEmbedUrl : Method EmbedState string :=
  st <- get ;;
  let (r, base') := Embed_getEmbedUrl (options st) (base st) in
  put {| options := options st; base := base';
         calls := calls st ++ [super_getEmbedUrl] |} ;;
  outcome r.

(** [super.load(options, requireId, message)] *)
Definition superLoad (opts : IEmbedOptions) (requireId : bool) (message : JSValue)
  : Method EmbedState unit :=
  st <- get ;;
  let (r, base') := Embed_load (options st) opts requireId message (base st) in
  put {| options := options st; base := base';
         calls := calls st ++ [super_load opts requireId message] |} ;;
  outcome r.

End Super.
End Embed.

Module Report.
Import Embed.

Section Methods.
Context `{EmbedSuper}.

Definition getEmbedUrl : Method EmbedState string :=
  embedUrl <- superGetEmbedUrl ;;
  options <- gets options ;;
  if negb (ToBoolean (filterPaneEnabled options)) then
    ret (embedUrl ++ "&filterPaneEnabled=false")
  else
    ret embedUrl.

(** [requireId] is [false] when the caller leaves it out. *)
Definition load (options : IEmbedOptions) (requireId : bool)
  : Method EmbedState unit :=
  (if requireId && negb (String.eqb (typeof (id options)) "string") then
     raise (ThrowError "id must be specified when loading reports on existing elements.")
   else ret tt) ;;
  let message := JObj [("action", JStr "loadReport");
                       ("reportId", id options);
                       ("accessToken", JNull)] in
  superLoad options requireId message.

End Methods.
End Report.

Module Tile.
Import Embed.

Section Methods.
Context `{EmbedSuper}.

Definition getEmbedUrl : Method EmbedState string :=
  embedUrl <- superGetEmbedUrl ;;
  ret embedUrl.

Definition load (options : IEmbedOptions) (requireId : bool)
  : Method EmbedState unit :=
  (if requireId && negb (String.eqb (typeof (id options)) "string") then
     raise (ThrowError "id must be specified when loading reports on existing elements.")
   else ret tt) ;;
  let message := JObj [("action", JStr "loadTile");
                       ("tileId", id options);
                       ("accessToken", JNull)] in
  superLoad options requireId message.

End Methods.
End Tile.

(** ** The remote operations of a page, taken together *)

Module Remote.
Import Page PageMethods.

(** The eight methods of [Page] that talk to the channel. *)
Inductive Operation : Type :=
| GetFilters
| SetFilters (filters : JSValue)
| RemoveFilters
| Delete
| SetActive
| SetDisplayName (displayName : string)
| GetVisuals
| HasLayout (layoutType : JSValue).

(** What the promise of an operation resolves with. *)
Inductive Result : Type :=
| Value (v : JSValue)
| Visuals (descriptors : list VisualDescriptor.VisualDescriptor).

Section Operations.
Context `{PageImports}.

Definition invoke (op : Operation) : Method PageState Result :=
  match op with
  | GetFilters => liftM Value getFilters
  | SetFilters filters => liftM Value (setFilters filters)
  | RemoveFilters => liftM Value removeFilters
  | Delete => liftM Value delete
  | SetActive => liftM Value setActive
  | SetDisplayName displayName => liftM Value (setDisplayName displayName)
  | GetVisuals => liftM Visuals getVisuals
  | HasLayout layoutType => liftM Value (hasLayout layoutType)
  end.

(** The operations behind the capability gate, and whether the gate
    stops them on this page. *)
Definition gated (op : Operation) : bool :=
  match op with
  | GetVisuals | HasLayout _ => true
  | _ => false
  end.

Definition blocked (this : Page) (op : Operation) : bool :=
  gated op && isRDLEmbed (embedUrl (config (report this))).

(** The request an operation hands to the channel ([request_issued]
    below ties it to the methods). *)
Definition request (this : Page) (op : Operation) : HpmCall :=
  let pages := "/report/pages/" in
  let headers := JObj [("uid", JStr (uniqueId (config (report this))))] in
  let window := contentWindow (iframe (report this)) in
  match op with
  | GetFilters =>
      hpm_get (pages ++ name this ++ "/filters") headers window
  | SetFilters filters =>
      hpm_put (pages ++ name this ++ "/filters") filters headers window
  | RemoveFilters =>
      hpm_put (pages ++ name this ++ "/filters") (JArr []) headers window
  | Delete =>
      hpm_delete (pages ++ name this) (JObj []) headers window
  | SetActive =>
      hpm_put "/report/pages/active"
              (JObj [("name", JStr (name this)); ("displayName", JNull);
                     ("isActive", JBool true)])
              headers window
  | SetDisplayName displayName =>
      hpm_put (pages ++ name this ++ "/name")
              (JObj [("name", JStr (name this));
                     ("displayName", JStr displayName)])
              headers window
  | GetVisuals =>
      hpm_get (pages ++ name this ++ "/visuals") headers window
  | HasLayout layoutType =>
      hpm_get (pages ++ name this ++ "/layoutTypes/" ++ LayoutType layoutType)
              headers window
  end.

(** The state once [call] has gone through the channel. *)
Definition issued (call : HpmCall) (st : PageState) : PageState :=
  {| this := this st;
     world := snd (hpm call (world st));
     requests := requests st ++ [call] |}.

(** The descriptor [getVisuals] builds from a visual that is an object. *)
Definition describe (this : Page) (visual : list (string * JSValue))
  : VisualDescriptor.VisualDescriptor :=
  {| VisualDescriptor.page := this;
     VisualDescriptor.name := lookup "name" visual;
     VisualDescriptor.title := lookup "title" visual;
     VisualDescriptor.type := lookup "type" visual;
     VisualDescriptor.layout := lookup "layout" visual |}.

(** The same from any element of the response body; [None] where
    reading a property of the element throws. *)
Definition descriptor (this : Page) (visual : JSValue)
  : option VisualDescriptor.VisualDescriptor :=
  match visual with
  | JUndefined | JNull => None
  | JObj props => Some (describe this props)
  | JBool _ | JNum _ | JStr _ | JArr _ => Some (describe this [])
  end.

Fixpoint descriptors (this : Page) (visuals : list JSValue)
  : option (list VisualDescriptor.VisualDescriptor) :=
  match visuals with
  | [] => Some []
  | visual :: rest =>
      match descriptor this visual, descriptors this rest with
      | Some d, Some ds => Some (d :: ds)
      | _, _ => None
      end
  end.

(** How a method leaves its [catch] clause when the channel rejected
    with [response]. *)
Definition rejection {A : Type} (response : JSValue) : Thrown + A :=
  match getProp response "body" with
  | Some body => inl (ThrowValue body)
  | None => inl ThrowTypeError
  end.

(** [return response.body] inside the [try]: a response without
    properties makes the access throw, and the [catch] clause rethrows
    the [body] of that [TypeError]. *)
Definition bodyOf (response : JSValue) : Thrown + JSValue :=
  match getProp response "body" with
  | Some body => inr body
  | None => inl (ThrowValue JUndefined)
  end.

(** [return response.body.map(...)] inside the [try], likewise. *)
Definition visualsOf (this : Page) (response : JSValue)
  : Thrown + list VisualDescriptor.VisualDescriptor :=
  match getProp response "body" with
  | Some (JArr visuals) =>
      match descriptors this visuals with
      | Some ds => inr ds
      | None => inl (ThrowValue JUndefined)
      end
  | _ => inl (ThrowValue JUndefined)
  end.

(** What an operation settles with once the channel resolved its
    request with [response]. *)
Definition resolution (this : Page) (op : Operation) (response : JSValue)
  : Thrown + Result :=
  match op with
  | GetFilters | Delete | HasLayout _ =>
      match bodyOf response with
      | inl e => inl e
      | inr body => inr (Value body)
      end
  | GetVisuals =>
      match visualsOf this response with
      | inl e => inl e
      | inr ds => inr (Visuals ds)
      end
  | SetFilters _ | RemoveFilters | SetActive | SetDisplayName _ =>
      inr (Value response)
  end.

(** A method keeps the receiver: whatever the channel does, and whether
    the method returns or throws, [this] is the page it started with. *)
Definition keeps_this {A : Type} (m : Method PageState A) : Prop :=
  forall st, this (snd (run m st)) = this st.

End Operations.
End Remote.

(** ** Instances to run the methods on

    They stand for no file of the repository: the theorems below hold for
    every instance, and these two give them concrete inputs. *)

Module Scripted.

(** A channel that settles its calls as a script says, in order. *)
Definition scripted (call : HpmCall) (script : list Settled) : Settled * list Settled :=
  match script with
  | [] => (Resolved JUndefined, [])
  | settled :: rest => (settled, rest)
  end.

Definition hasRdlEmbed (url : string) : bool :=
  match String.index 0 "/rdlEmbed?" url with
  | Some _ => true
  | None => false
  end.

Definition imports : PageImports :=
  {| World := list Settled;
     hpm := scripted;
     isRDLEmbed := hasRdlEmbed;
     APINotSupportedForRDLError := JStr "This API is currently not supported for RDL reports";
     LayoutType := fun layoutType =>
                     match layoutType with
                     | JStr s => s
                     | _ => "undefined"
                     end |}.

Definition reportNode (url : string) : IReportNode :=
  {| iframe := {| contentWindow := 7 |};
     config := {| uniqueId := "uid-1"; embedUrl := url |} |}.

Definition page (url : string) : Page.Page :=
  {| Page.report := reportNode url;
     Page.name := "ReportSection1";
     Page.displayName := JStr "Overview";
     Page.isActive := JBool false;
     Page.visibility := JNum 0;
     Page.defaultSize := JUndefined;
     Page.defaultDisplayOption := JUndefined |}.

Definition powerbiUrl : string := "https://app.powerbi.com/reportEmbed?reportId=r1".
Definition rdlUrl : string := "https://app.powerbi.com/rdlEmbed?reportId=r1".

Definition state (url : string) (script : list Settled) : @PageMethods.PageState imports :=
  @PageMethods.Build_PageState imports (page url) script [].

Definition envelope (body : JSValue) : JSValue :=
  JObj [("statusCode", JNum 200); ("headers", JObj []); ("body", body)].

Definition visual : list (string * JSValue) :=
  [("name", JStr "VisualContainer1"); ("title", JStr "Sales");
   ("type", JStr "barChart"); ("layout", JObj [("x", JNum 0); ("y", JNum 0)])].

Definition visualsResponse : JSValue := envelope (JArr [JObj visual]).

Definition visualsState : @PageMethods.PageState imports :=
  state powerbiUrl [Resolved visualsResponse].

(** A base class that keeps a configured URL and the directives posted. *)
Record Recording : Type := {
  configuredUrl : string;
  posted : list JSValue
}.

Definition super : Embed.EmbedSuper :=
  {| Embed.Base := Recording;
     Embed.Embed_getEmbedUrl := fun _ base => (inr (configuredUrl base), base);
     Embed.Embed_load := fun _ _ _ message base =>
       (inr tt, {| configuredUrl := configuredUrl base;
                   posted := posted base ++ [message] |}) |}.

Definition embedOptions (id filterPaneEnabled : JSValue) : Embed.IEmbedOptions :=
  {| Embed.id := id;
     Embed.type := JStr "report";
     Embed.embedUrl := JStr powerbiUrl;
     Embed.accessToken := JStr "token";
     Embed.filterPaneEnabled := filterPaneEnabled |}.

Definition embedState (options : Embed.IEmbedOptions) : @Embed.EmbedState super :=
  @Embed.Build_EmbedState super options
    {| configuredUrl := powerbiUrl; posted := [] |} [].

(** A base class whose methods throw. *)
Definition throwing : Embed.EmbedSuper :=
  {| Embed.Base := unit;
     Embed.Embed_getEmbedUrl := fun _ base => (inl (ThrowError "no embed url"), base);
     Embed.Embed_load := fun _ _ _ _ base => (inl (ThrowError "no iframe"), base) |}.

Definition throwingState (options : Embed.IEmbedOptions) : @Embed.EmbedState throwing :=
  @Embed.Build_EmbedState throwing options tt [].

End Scripted.

(** * Properties *)

Local Arguments String.append : simpl never.

(** ** Running the monad *)

Section Run.
Context {St : Type}.

Lemma run_ret {A : Type} (a : A) (st : St) :
  run (ret a : Method St A) st = (inr a, st).
Proof. reflexivity. Qed.

Lemma run_raise {A : Type} (e : Thrown) (st : St) :
  run (raise e : Method St A) st = (inl e, st).
Proof. reflexivity. Qed.

Lemma run_bind {A B : Type} (m : Method St A) (k : A -> Method St B) (st : St) :
  run (bind m k) st =
  match run m st with
  | (inl e, st') => (inl e, st')
  | (inr a, st') => run (k a) st'
  end.
Proof.
  unfold run. cbn.
  destruct (runState (unEitherT m) st) as [[e | a] st']; reflexivity.
Qed.

Lemma run_catch {A : Type} (m : Method St A) (h : Thrown -> Method St A) (st : St) :
  run (catch m h) st =
  match run m st with
  | (inl e, st') => run (h e) st'
  | (inr a, st') => (inr a, st')
  end.
Proof.
  unfold run. cbn.
  destruct (runState (unEitherT m) st) as [[e | a] st']; reflexivity.
Qed.

Lemma run_gets {A : Type} (f : St -> A) (st : St) :
  run (gets f : Method St A) st = (inr (f st), st).
Proof. reflexivity. Qed.

Lemma run_liftM {A B : Type} (f : A -> B) (m : Method St A) (st : St) :
  run (liftM f m) st =
  match run m st with
  | (inl e, st') => (inl e, st')
  | (inr a, st') => (inr (f a), st')
  end.
Proof.
  unfold liftM. rewrite run_bind.
  destruct (run m st) as [[e | a] st']; reflexivity.
Qed.

Lemma run_prop (o : option JSValue) (st : St) :
  run (prop o) st =
  (match o with Some v => inr v | None => inl ThrowTypeError end, st).
Proof. destruct o; reflexivity. Qed.

End Run.

(** ** What each method of [Page] does, as one equation *)

Section PageEquations.
Import Page PageMethods Remote.
Context `{PageImports}.

Ltac by_cases :=
  unfold run, issued, rejection, bodyOf; cbn; unfold uid, target;
  repeat match goal with
    | |- context [isRDLEmbed ?u] => destruct (isRDLEmbed u); cbn
    | |- context [hpm ?c ?w] => destruct (hpm c w) as [[? | ?] ?]; cbn
    | |- context [getProp ?r ?k] => destruct (getProp r k); cbn
    end;
  try reflexivity.

Lemma run_await (call : HpmCall) (st : PageState) :
  run (await call) st =
  (match fst (hpm call (world st)) with
   | Resolved response => inr response
   | Rejected response => inl (ThrowValue response)
   end, issued call st).
Proof. by_cases. Qed.

Lemma run_throwBody {A : Type} (e : Thrown) (st : PageState) :
  run (throwBody e : Method PageState A) st =
  (match caughtProp e "body" with
   | Some body => inl (ThrowValue body)
   | None => inl ThrowTypeError
   end, st).
Proof.
  unfold run, throwBody. cbn. destruct (caughtProp e "body"); reflexivity.
Qed.

(** The three methods that read a body. *)
Lemma run_getFilters (st : PageState) :
  run getFilters st =
  let call := request (this st) GetFilters in
  (match fst (hpm call (world st)) with
   | Resolved response => bodyOf response
   | Rejected response => rejection response
   end, issued call st).
Proof. by_cases. Qed.

Lemma run_delete (st : PageState) :
  run delete st =
  let call := request (this st) Delete in
  (match fst (hpm call (world st)) with
   | Resolved response => bodyOf response
   | Rejected response => rejection response
   end, issued call st).
Proof. by_cases. Qed.

Lemma run_hasLayout (layoutType : JSValue) (st : PageState) :
  run (hasLayout layoutType) st =
  if isRDLEmbed (embedUrl (config (report (this st)))) then
    (inl (ThrowValue APINotSupportedForRDLError), st)
  else
    let call := request (this st) (HasLayout layoutType) in
    (match fst (hpm call (world st)) with
     | Resolved response => bodyOf response
     | Rejected response => rejection response
     end, issued call st).
Proof. by_cases. Qed.

(** The four methods that write. *)
Lemma run_setFilters (filters : JSValue) (st : PageState) :
  run (setFilters filters) st =
  let call := request (this st) (SetFilters filters) in
  (match fst (hpm call (world st)) with
   | Resolved response => inr response
   | Rejected response => rejection response
   end, issued call st).
Proof. by_cases. Qed.

Lemma run_removeFilters (st : PageState) :
  run removeFilters st =
  let call := request (this st) RemoveFilters in
  (match fst (hpm call (world st)) with
   | Resolved response => inr response
   | Rejected response => rejection response
   end, issued call st).
Proof. by_cases. Qed.

Lemma run_setActive (st : PageState) :
  run setActive st =
  let call := request (this st) SetActive in
  (match fst (hpm call (world st)) with
   | Resolved response => inr response
   | Rejected response => rejection response
   end, issued call st).
Proof. by_cases. Qed.

Lemma run_setDisplayName (displayName : string) (st : PageState) :
  run (setDisplayName displayName) st =
  let call := request (this st) (SetDisplayName displayName) in
  (match fst (hpm call (world st)) with
   | Resolved response => inr response
   | Rejected response => rejection response
   end, issued call st).
Proof. by_cases. Qed.

(** [map] and its callback neither touch the state nor the channel. *)
Lemma run_newVisualDescriptor (page : Page) (visual : JSValue) (st : PageState) :
  run (newVisualDescriptor page visual) st =
  (match descriptor page visual with
   | Some d => inr d
   | None => inl ThrowTypeError
   end, st).
Proof. destruct visual; reflexivity. Qed.

Lemma run_mapM_descriptors (page : Page) (visuals : list JSValue) (st : PageState) :
  run (mapM (newVisualDescriptor page) visuals) st =
  (match descriptors page visuals with
   | Some ds => inr ds
   | None => inl ThrowTypeError
   end, st).
Proof.
  induction visuals as [| visual rest IH].
  - reflexivity.
  - change (mapM (newVisualDescriptor page) (visual :: rest))
      with (y <- newVisualDescriptor page visual ;;
            ys <- mapM (newVisualDescriptor page) rest ;;
            ret (y :: ys)).
    rewrite run_bind, run_newVisualDescriptor.
    cbn [descriptors].
    destruct (descriptor page visual) as [d |]; [| reflexivity].
    rewrite run_bind, IH.
    destruct (descriptors page rest); reflexivity.
Qed.

Lemma run_arrayMap (page : Page) (body : JSValue) (st : PageState) :
  run (arrayMap body (newVisualDescriptor page)) st =
  (match body with
   | JArr visuals =>
       match descriptors page visuals with
       | Some ds => inr ds
       | None => inl ThrowTypeError
       end
   | _ => inl ThrowTypeError
   end, st).
Proof.
  destruct body; try reflexivity. apply run_mapM_descriptors.
Qed.

Lemma run_getVisuals (st : PageState) :
  run getVisuals st =
  if isRDLEmbed (embedUrl (config (report (this st)))) then
    (inl (ThrowValue APINotSupportedForRDLError), st)
  else
    let call := request (this st) GetVisuals in
    (match fst (hpm call (world st)) with
     | Resolved response => visualsOf (this st) response
     | Rejected response => rejection response
     end, issued call st).
Proof.
  unfold getVisuals.
  rewrite run_bind, run_gets.
  destruct (isRDLEmbed (embedUrl (config (report (this st))))); [reflexivity |].
  rewrite run_catch, run_bind, run_gets, run_bind, run_await.
  cbv zeta. change (request (this st) GetVisuals)
    with (hpm_get ("/report/pages/" ++ name (this st) ++ "/visuals")
                  (uid (this st)) (target (this st))).
  destruct (fst (hpm _ (world st))) as [response | response].
  - rewrite run_bind, run_prop. unfold visualsOf.
    destruct (getProp response "body") as [body |]; [| reflexivity].
    rewrite run_bind, run_gets, run_arrayMap.
    destruct body; try reflexivity.
    cbn [issued this].
    destruct (descriptors _ elems); reflexivity.
  - rewrite run_throwBody. reflexivity.
Qed.

End PageEquations.

(** ** The remote operations of a page *)

Section PageProperties.
Import Page PageMethods Remote.
Context `{PageImports}.

(** Every operation in one equation: the gate, then one request, then
    the translation of how it settled. *)
Lemma run_invoke (op : Operation) (st : PageState) :
  run (invoke op) st =
  if blocked (this st) op then
    (inl (ThrowValue APINotSupportedForRDLError), st)
  else
    let call := request (this st) op in
    (match fst (hpm call (world st)) with
     | Resolved response => resolution (this st) op response
     | Rejected response => rejection response
     end, issued call st).
Proof.
  unfold blocked, resolution.
  destruct op; unfold invoke; rewrite run_liftM; cbn [gated andb].
  - rewrite run_getFilters. cbv zeta.
    destruct (fst (hpm _ _)) as [r | r];
      [destruct (bodyOf r) | unfold rejection; destruct (getProp r _)]; reflexivity.
  - rewrite run_setFilters. cbv zeta.
    destruct (fst (hpm _ _)) as [r | r];
      [| unfold rejection; destruct (getProp r _)]; reflexivity.
  - rewrite run_removeFilters. cbv zeta.
    destruct (fst (hpm _ _)) as [r | r];
      [| unfold rejection; destruct (getProp r _)]; reflexivity.
  - rewrite run_delete. cbv zeta.
    destruct (fst (hpm _ _)) as [r | r];
      [destruct (bodyOf r) | unfold rejection; destruct (getProp r _)]; reflexivity.
  - rewrite run_setActive. cbv zeta.
    destruct (fst (hpm _ _)) as [r | r];
      [| unfold rejection; destruct (getProp r _)]; reflexivity.
  - rewrite run_setDisplayName. cbv zeta.
    destruct (fst (hpm _ _)) as [r | r];
      [| unfold rejection; destruct (getProp r _)]; reflexivity.
  - rewrite run_getVisuals.
    destruct (isRDLEmbed _); [reflexivity |]. cbv zeta.
    destruct (fst (hpm _ _)) as [r | r];
      [destruct (visualsOf _ r) | unfold rejection; destruct (getProp r _)]; reflexivity.
  - rewrite run_hasLayout.
    destruct (isRDLEmbed _); [reflexivity |]. cbv zeta.
    destruct (fst (hpm _ _)) as [r | r];
      [destruct (bodyOf r) | unfold rejection; destruct (getProp r _)]; reflexivity.
Qed.

(** An operation the gate lets through issues exactly one request, the
    one [request] describes. *)
Lemma request_issued (op : Operation) (st : PageState) :
  blocked (this st) op = false ->
  requests (snd (run (invoke op) st)) = (requests st ++ [request (this st) op])%list.
Proof.
  intros Hgate. rewrite run_invoke, Hgate. reflexivity.
Qed.

(** C2. Whenever the channel rejects the request of a page operation
    (getFilters, setFilters, removeFilters, delete, setActive,
    setDisplayName, getVisuals, hasLayout) with an envelope whose [body]
    is [error], the operation rejects with exactly [error]: not the
    envelope, not another error.  The request in question is the one the
    operation issued. *)
Theorem rejection_surfaces_body (op : Operation) (st : PageState)
    (response error : JSValue) :
  blocked (this st) op = false ->
  fst (hpm (request (this st) op) (world st)) = Rejected response ->
  getProp response "body" = Some error ->
  fst (run (invoke op) st) = inl (ThrowValue error) /\
  requests (snd (run (invoke op) st)) = (requests st ++ [request (this st) op])%list.
Proof.
  intros Hgate Hreject Hbody.
  rewrite run_invoke, Hgate. cbv zeta. cbn [fst snd].
  rewrite Hreject. unfold rejection. rewrite Hbody. split; reflexivity.
Qed.

(** C3. On a page whose report's embed URL satisfies [isRDLEmbed],
    getVisuals and hasLayout reject with [APINotSupportedForRDLError] and
    leave the channel and its trace as they were: no request is issued.
    When the predicate does not hold, each issues its one request: the
    trace grows by it and the channel's world is the one that call left. *)
Theorem capability_gate (st : PageState) (layoutType : JSValue) :
  (isRDLEmbed (embedUrl (config (report (this st)))) = true ->
   run getVisuals st = (inl (ThrowValue APINotSupportedForRDLError), st) /\
   run (hasLayout layoutType) st = (inl (ThrowValue APINotSupportedForRDLError), st))
  /\
  (isRDLEmbed (embedUrl (config (report (this st)))) = false ->
   requests (snd (run getVisuals st)) =
     (requests st ++
     [hpm_get ("/report/pages/" ++ name (this st) ++ "/visuals")
              (JObj [("uid", JStr (uniqueId (config (report (this st)))))])
              (contentWindow (iframe (report (this st))))])%list /\
   requests (snd (run (hasLayout layoutType) st)) =
     (requests st ++
     [hpm_get ("/report/pages/" ++ name (this st) ++ "/layoutTypes/"
                 ++ LayoutType layoutType)
              (JObj [("uid", JStr (uniqueId (config (report (this st)))))])
              (contentWindow (iframe (report (this st))))])%list /\
   world (snd (run getVisuals st)) =
     snd (hpm (hpm_get ("/report/pages/" ++ name (this st) ++ "/visuals")
                       (JObj [("uid", JStr (uniqueId (config (report (this st)))))])
                       (contentWindow (iframe (report (this st)))))
              (world st)) /\
   world (snd (run (hasLayout layoutType) st)) =
     snd (hpm (hpm_get ("/report/pages/" ++ name (this st) ++ "/layoutTypes/"
                          ++ LayoutType layoutType)
                       (JObj [("uid", JStr (uniqueId (config (report (this st)))))])
                       (contentWindow (iframe (report (this st)))))
              (world st))).
Proof.
  rewrite run_getVisuals, run_hasLayout.
  split; intros Hgate; rewrite Hgate.
  - split; reflexivity.
  - split; [| split; [| split]]; reflexivity.
Qed.


(** C7. Whatever the page's [displayName] and [isActive] (and other
    fields) hold, setActive sends one request: a PUT to
    /report/pages/active of the payload
    {name: <page.name>, displayName: null, isActive: true}, with the
    report's unique id as [uid] and the report's iframe window as
    target.  That PUT is what the channel is called with: the channel's
    world afterwards is the one the call left, and the method settles as
    the call settled (the envelope on success, the rejection's body
    otherwise). *)
Theorem setActive_request (report : IReportNode) (name : string)
    (displayName isActive visibility defaultSize defaultDisplayOption : JSValue)
    (world : World) (requests : list HpmCall) :
  let page := {| Page.report := report; Page.name := name;
                 Page.displayName := displayName; Page.isActive := isActive;
                 Page.visibility := visibility; Page.defaultSize := defaultSize;
                 Page.defaultDisplayOption := defaultDisplayOption |} in
  let call := hpm_put "/report/pages/active"
                      (JObj [("name", JStr name); ("displayName", JNull);
                             ("isActive", JBool true)])
                      (JObj [("uid", JStr (uniqueId (config report)))])
                      (contentWindow (iframe report)) in
  let outcome := run setActive {| this := page; PageMethods.world := world;
                                  PageMethods.requests := requests |} in
  PageMethods.requests (snd outcome) =
  (requests ++
  [hpm_put "/report/pages/active"
           (JObj [("name", JStr name); ("displayName", JNull);
                  ("isActive", JBool true)])
           (JObj [("uid", JStr (uniqueId (config report)))])
           (contentWindow (iframe report))])%list
  /\
  PageMethods.world (snd outcome) = snd (hpm call world)
  /\
  fst outcome =
    match fst (hpm call world) with
    | Resolved response => inr response
    | Rejected response =>
        match getProp response "body" with
        | Some body => inl (ThrowValue body)
        | None => inl ThrowTypeError
        end
    end.
Proof.
  intros page call outcome. subst outcome. rewrite run_setActive.
  split; [| split]; reflexivity.
Qed.

(** C10. For every string [d], setDisplayName(d) sends one request: a
    PUT to /report/pages/{name}/name of the payload
    {name: <page.name>, displayName: d}.  The page's own [displayName]
    has no part in the request, and the page is the same afterwards.
    That PUT is what the channel is called with: the channel's world
    afterwards is the one the call left, and the method settles as the
    call settled (the envelope on success, the rejection's body
    otherwise). *)
Theorem setDisplayName_request (d : string) (report : IReportNode) (name : string)
    (displayName isActive visibility defaultSize defaultDisplayOption : JSValue)
    (world : World) (requests : list HpmCall) :
  let page := {| Page.report := report; Page.name := name;
                 Page.displayName := displayName; Page.isActive := isActive;
                 Page.visibility := visibility; Page.defaultSize := defaultSize;
                 Page.defaultDisplayOption := defaultDisplayOption |} in
  let call := hpm_put ("/report/pages/" ++ name ++ "/name")
                      (JObj [("name", JStr name); ("displayName", JStr d)])
                      (JObj [("uid", JStr (uniqueId (config report)))])
                      (contentWindow (iframe report)) in
  let outcome := run (setDisplayName d)
                     {| this := page; PageMethods.world := world;
                        PageMethods.requests := requests |} in
  let st' := snd outcome in
  (PageMethods.requests st' =
    (requests ++
    [hpm_put ("/report/pages/" ++ name ++ "/name")
             (JObj [("name", JStr name); ("displayName", JStr d)])
             (JObj [("uid", JStr (uniqueId (config report)))])
             (contentWindow (iframe report))])%list
   /\ this st' = page)
  /\
  PageMethods.world st' = snd (hpm call world)
  /\
  fst outcome =
    match fst (hpm call world) with
    | Resolved response => inr response
    | Rejected response =>
        match getProp response "body" with
        | Some body => inl (ThrowValue body)
        | None => inl ThrowTypeError
        end
    end.
Proof.
  intros page call outcome st'. subst st' outcome. rewrite run_setDisplayName.
  split; [split | split]; reflexivity.
Qed.

End PageProperties.

(** ** The frame of a page operation *)

Section Frame.
Import Page PageMethods Remote.
Context `{PageImports}.

Lemma keeps_ret {A : Type} (a : A) : keeps_this (ret a).
Proof. intros st. reflexivity. Qed.

Lemma keeps_raise {A : Type} (e : Thrown) : keeps_this (raise e : Method PageState A).
Proof. intros st. reflexivity. Qed.

Lemma keeps_gets {A : Type} (f : PageState -> A) : keeps_this (gets f).
Proof. intros st. reflexivity. Qed.

Lemma keeps_prop (o : option JSValue) : keeps_this (prop o).
Proof. intros st. rewrite run_prop. reflexivity. Qed.

Lemma keeps_await (call : HpmCall) : keeps_this (await call).
Proof. intros st. rewrite run_await. reflexivity. Qed.

Lemma keeps_bind {A B : Type} (m : Method PageState A) (k : A -> Method PageState B) :
  keeps_this m -> (forall a, keeps_this (k a)) -> keeps_this (bind m k).
Proof.
  intros Hm Hk st. rewrite run_bind. specialize (Hm st).
  destruct (run m st) as [[e | a] st']; cbn [snd] in *.
  - exact Hm.
  - rewrite Hk. exact Hm.
Qed.

Lemma keeps_catch {A : Type} (m : Method PageState A) (h : Thrown -> Method PageState A) :
  keeps_this m -> (forall e, keeps_this (h e)) -> keeps_this (catch m h).
Proof.
  intros Hm Hh st. rewrite run_catch. specialize (Hm st).
  destruct (run m st) as [[e | a] st']; cbn [snd] in *.
  - rewrite Hh. exact Hm.
  - exact Hm.
Qed.

Lemma keeps_if {A : Type} (b : bool) (m1 m2 : Method PageState A) :
  keeps_this m1 -> keeps_this m2 -> keeps_this (if b then m1 else m2).
Proof. destruct b; auto. Qed.

Lemma keeps_liftM {A B : Type} (f : A -> B) (m : Method PageState A) :
  keeps_this m -> keeps_this (liftM f m).
Proof.
  intros Hm. unfold liftM. apply keeps_bind; [exact Hm | intros a; apply keeps_ret].
Qed.

Create HintDb frame discriminated.
#[local] Hint Resolve keeps_ret keeps_raise keeps_gets keeps_prop keeps_await
  keeps_bind keeps_catch keeps_if keeps_liftM : frame.

Lemma keeps_throwBody {A : Type} (e : Thrown) :
  keeps_this (throwBody e : Method PageState A).
Proof. unfold throwBody. auto with frame. Qed.

Lemma keeps_newVisualDescriptor (page : Page) (visual : JSValue) :
  keeps_this (newVisualDescriptor page visual).
Proof. unfold newVisualDescriptor. auto 10 with frame. Qed.

Lemma keeps_mapM {A B : Type} (f : A -> Method PageState B) (l : list A) :
  (forall a, keeps_this (f a)) -> keeps_this (mapM f l).
Proof.
  intros Hf. induction l as [| a l IH]; cbn [mapM]; auto 10 with frame.
Qed.

Lemma keeps_arrayMap {B : Type} (body : JSValue) (f : JSValue -> Method PageState B) :
  (forall a, keeps_this (f a)) -> keeps_this (arrayMap body f).
Proof.
  intros Hf. destruct body; cbn [arrayMap]; auto using keeps_mapM with frame.
Qed.

#[local] Hint Resolve keeps_throwBody keeps_newVisualDescriptor keeps_arrayMap : frame.

Lemma keeps_getFilters : keeps_this getFilters.
Proof. unfold getFilters. auto 10 with frame. Qed.

Lemma keeps_delete : keeps_this delete.
Proof. unfold delete. auto 10 with frame. Qed.

Lemma keeps_setFilters (filters : JSValue) : keeps_this (setFilters filters).
Proof. unfold setFilters. auto 10 with frame. Qed.

Lemma keeps_removeFilters : keeps_this removeFilters.
Proof. unfold removeFilters. auto using keeps_setFilters with frame. Qed.

Lemma keeps_setActive : keeps_this setActive.
Proof. unfold setActive. auto 10 with frame. Qed.

Lemma keeps_setDisplayName (displayName : string) :
  keeps_this (setDisplayName displayName).
Proof. unfold setDisplayName. auto 10 with frame. Qed.

Lemma keeps_getVisuals : keeps_this getVisuals.
Proof. unfold getVisuals. auto 12 with frame. Qed.

Lemma keeps_hasLayout (layoutType : JSValue) : keeps_this (hasLayout layoutType).
Proof. unfold hasLayout. auto 12 with frame. Qed.

(** C9. No remote operation of a page changes the page: after the
    operation, whether it resolved or rejected, [this] (the fields
    report, name, displayName, isActive, visibility, defaultSize and
    defaultDisplayOption, and with [report] the owning report's
    configuration) is what it was before the call. *)
Theorem operations_keep_page (op : Operation) (st : PageState) :
  this (snd (run (invoke op) st)) = this st.
Proof.
  revert st. change (keeps_this (invoke op)).
  destruct op; cbn [invoke]; apply keeps_liftM.
  - apply keeps_getFilters.
  - apply keeps_setFilters.
  - apply keeps_removeFilters.
  - apply keeps_delete.
  - apply keeps_setActive.
  - apply keeps_setDisplayName.
  - apply keeps_getVisuals.
  - apply keeps_hasLayout.
Qed.

End Frame.

(** ** What an operation resolves with *)

Section Success.
Import Page PageMethods Remote.
Context `{PageImports}.

Lemma descriptors_objects (page : Page) (visuals : list (list (string * JSValue))) :
  descriptors page (map JObj visuals) = Some (map (describe page) visuals).
Proof.
  induction visuals as [| visual rest IH]; cbn [map descriptors descriptor].
  - reflexivity.
  - rewrite IH. reflexivity.
Qed.

(** C8, as the code has it.  Once the channel resolved the request with
    an envelope: getFilters, hasLayout and delete resolve with the
    envelope's body; getVisuals, on a body that is an array of visual
    objects, resolves with a new array that holds for each of them a
    [VisualDescriptor] bound to this page with the visual's name, title,
    type and layout; setFilters, removeFilters, setActive and
    setDisplayName resolve with the envelope itself. *)
Theorem success_results (op : Operation) (st : PageState) (response : JSValue) :
  blocked (this st) op = false ->
  fst (hpm (request (this st) op) (world st)) = Resolved response ->
  match op with
  | GetFilters | Delete | HasLayout _ =>
      forall body, getProp response "body" = Some body ->
      fst (run (invoke op) st) = inr (Value body)
  | GetVisuals =>
      forall visuals, getProp response "body" = Some (JArr (map JObj visuals)) ->
      fst (run (invoke op) st) = inr (Visuals (map (describe (this st)) visuals))
  | SetFilters _ | RemoveFilters | SetActive | SetDisplayName _ =>
      fst (run (invoke op) st) = inr (Value response)
  end.
Proof.
  intros Hgate Hresolve.
  rewrite run_invoke, Hgate. cbv zeta. cbn [fst]. rewrite Hresolve.
  destruct op; cbn [resolution]; try reflexivity;
    unfold bodyOf, visualsOf; intros body Hbody; rewrite Hbody;
    try reflexivity.
  rewrite descriptors_objects. reflexivity.
Qed.

(** X16. A resolved response whose body is not an array of visuals (or that
    has no properties at all) makes [getVisuals] reject with [undefined]:
    the [TypeError] raised inside the [try] reaches the [catch] clause,
    which throws its [body]. *)
Lemma getVisuals_body_not_array (st : PageState) (response : JSValue) :
  isRDLEmbed (embedUrl (config (report (this st)))) = false ->
  fst (hpm (request (this st) GetVisuals) (world st)) = Resolved response ->
  (forall visuals, getProp response "body" <> Some (JArr visuals)) ->
  fst (run getVisuals st) = inl (ThrowValue JUndefined).
Proof.
  intros Hgate Hresolve Hbody.
  rewrite run_getVisuals, Hgate. cbv zeta. cbn [fst]. rewrite Hresolve.
  unfold visualsOf.
  destruct (getProp response "body") as [[] |]; try reflexivity.
  exfalso. eapply Hbody. reflexivity.
Qed.

End Success.

(** ** Reports and tiles *)

Section EmbedProperties.
Import Embed.
Context `{EmbedSuper}.

Lemma run_superLoad (opts : IEmbedOptions) (requireId : bool) (message : JSValue)
    (st : EmbedState) :
  run (superLoad opts requireId message) st =
  (fst (Embed_load (options st) opts requireId message (base st)),
   {| options := options st;
      base := snd (Embed_load (options st) opts requireId message (base st));
      calls := calls st ++ [super_load opts requireId message] |}).
Proof.
  unfold run, superLoad. cbn.
  destruct (Embed_load _ _ _ _ _) as [[e | []] base']; reflexivity.
Qed.

Lemma run_superGetEmbedUrl (st : EmbedState) :
  run superGetEmbedUrl st =
  (fst (Embed_getEmbedUrl (options st) (base st)),
   {| options := options st;
      base := snd (Embed_getEmbedUrl (options st) (base st));
      calls := calls st ++ [super_getEmbedUrl] |}).
Proof.
  unfold run, superGetEmbedUrl. cbn.
  destruct (Embed_getEmbedUrl _ _) as [[e | url] base']; reflexivity.
Qed.

(** The guard of [Report.load] and [Tile.load], then the call on
    [super]. *)
Lemma run_Report_load (opts : IEmbedOptions) (requireId : bool) (st : EmbedState) :
  run (Report.load opts requireId) st =
  if requireId && negb (String.eqb (typeof (id opts)) "string") then
    (inl (ThrowError "id must be specified when loading reports on existing elements."),
     st)
  else
    run (superLoad opts requireId
           (JObj [("action", JStr "loadReport"); ("reportId", id opts);
                  ("accessToken", JNull)])) st.
Proof.
  unfold Report.load. rewrite run_bind.
  destruct (requireId && _); reflexivity.
Qed.

Lemma run_Tile_load (opts : IEmbedOptions) (requireId : bool) (st : EmbedState) :
  run (Tile.load opts requireId) st =
  if requireId && negb (String.eqb (typeof (id opts)) "string") then
    (inl (ThrowError "id must be specified when loading reports on existing elements."),
     st)
  else
    run (superLoad opts requireId
           (JObj [("action", JStr "loadTile"); ("tileId", id opts);
                  ("accessToken", JNull)])) st.
Proof.
  unfold Tile.load. rewrite run_bind.
  destruct (requireId && _); reflexivity.
Qed.

(** C1. With requireId = true: when [options.id] is not a string,
    Report.load and Tile.load throw the invalid-argument error and leave
    the state as it was, so [super.load] was not called and nothing was
    built or dispatched; when [options.id] is a string, the guard lets
    the call through: the method does what [super.load], called with the
    directive, does, and throws nothing of its own. *)
Theorem load_requires_id (opts : IEmbedOptions) (st : EmbedState) :
  (typeof (id opts) <> "string" ->
   run (Report.load opts true) st =
     (inl (ThrowError "id must be specified when loading reports on existing elements."),
      st) /\
   run (Tile.load opts true) st =
     (inl (ThrowError "id must be specified when loading reports on existing elements."),
      st))
  /\
  (typeof (id opts) = "string" ->
   run (Report.load opts true) st =
     run (superLoad opts true
            (JObj [("action", JStr "loadReport"); ("reportId", id opts);
                   ("accessToken", JNull)])) st /\
   run (Tile.load opts true) st =
     run (superLoad opts true
            (JObj [("action", JStr "loadTile"); ("tileId", id opts);
                   ("accessToken", JNull)])) st).
Proof.
  rewrite run_Report_load, run_Tile_load. cbn [andb].
  split; intros Hid.
  - apply String.eqb_neq in Hid. rewrite Hid. split; reflexivity.
  - apply String.eqb_eq in Hid. rewrite Hid. split; reflexivity.
Qed.

(** C4. When the base class returns the embed URL [baseUrl]:
    Report.getEmbedUrl returns [baseUrl] followed by
    "&filterPaneEnabled=false" if the held options' [filterPaneEnabled]
    is falsy ([false] and [undefined] are), and returns [baseUrl] itself
    if it is truthy. *)
Theorem getEmbedUrl_filterPane (st : EmbedState) (baseUrl : string) :
  fst (Embed_getEmbedUrl (options st) (base st)) = inr baseUrl ->
  (ToBoolean (filterPaneEnabled (options st)) = false ->
   fst (run Report.getEmbedUrl st) = inr (baseUrl ++ "&filterPaneEnabled=false"))
  /\
  (ToBoolean (filterPaneEnabled (options st)) = true ->
   fst (run Report.getEmbedUrl st) = inr baseUrl).
Proof.
  intros Hbase. unfold Report.getEmbedUrl.
  rewrite run_bind, run_superGetEmbedUrl, Hbase, run_bind, run_gets.
  cbn [options].
  split; intros Hpane; rewrite Hpane; reflexivity.
Qed.

(** C5. For options whose [id] is the string [s], Report.load dispatches
    exactly one directive,
    {action: "loadReport", reportId: s, accessToken: null}, and Tile.load
    exactly {action: "loadTile", tileId: s, accessToken: null}: nothing
    of the options but [id] enters the directive.  To dispatch is to call
    [super.load] with the directive: the call is traced, the method ends
    as that call ends, and the base object is what that call left. *)
Theorem load_directive (opts : IEmbedOptions) (requireId : bool) (s : string)
    (st : EmbedState) :
  id opts = JStr s ->
  (calls (snd (run (Report.load opts requireId) st)) =
     (calls st ++
      [super_load opts requireId
         (JObj [("action", JStr "loadReport"); ("reportId", JStr s);
                ("accessToken", JNull)])])%list
   /\
   calls (snd (run (Tile.load opts requireId) st)) =
     (calls st ++
      [super_load opts requireId
         (JObj [("action", JStr "loadTile"); ("tileId", JStr s);
                ("accessToken", JNull)])])%list)
  /\
  (fst (run (Report.load opts requireId) st) =
     fst (Embed_load (options st) opts requireId
            (JObj [("action", JStr "loadReport"); ("reportId", JStr s);
                   ("accessToken", JNull)]) (base st))
   /\
   base (snd (run (Report.load opts requireId) st)) =
     snd (Embed_load (options st) opts requireId
            (JObj [("action", JStr "loadReport"); ("reportId", JStr s);
                   ("accessToken", JNull)]) (base st)))
  /\
  (fst (run (Tile.load opts requireId) st) =
     fst (Embed_load (options st) opts requireId
            (JObj [("action", JStr "loadTile"); ("tileId", JStr s);
                   ("accessToken", JNull)]) (base st))
   /\
   base (snd (run (Tile.load opts requireId) st)) =
     snd (Embed_load (options st) opts requireId
            (JObj [("action", JStr "loadTile"); ("tileId", JStr s);
                   ("accessToken", JNull)]) (base st))).
Proof.
  intros Hid. rewrite run_Report_load, run_Tile_load, Hid. cbn [typeof].
  rewrite String.eqb_refl, andb_false_r, !run_superLoad.
  split; [| split]; split; reflexivity.
Qed.

End EmbedProperties.

Section TileUrl.
Import Embed.
Context `{EmbedSuper}.

(** [Tile.getEmbedUrl] returns what the base class returns. *)
Lemma Tile_getEmbedUrl_passes_through (st : EmbedState) :
  fst (run Tile.getEmbedUrl st) = fst (Embed_getEmbedUrl (options st) (base st)).
Proof.
  unfold Tile.getEmbedUrl. rewrite run_bind, run_superGetEmbedUrl.
  destruct (fst (Embed_getEmbedUrl _ _)); reflexivity.
Qed.

(** When the base class throws, so does [Report.getEmbedUrl]. *)
Lemma Report_getEmbedUrl_throws (st : EmbedState) (e : Thrown) :
  fst (Embed_getEmbedUrl (options st) (base st)) = inl e ->
  fst (run Report.getEmbedUrl st) = inl e.
Proof.
  intros Hbase. unfold Report.getEmbedUrl.
  rewrite run_bind, run_superGetEmbedUrl, Hbase. reflexivity.
Qed.

End TileUrl.

(** ** The properties at concrete inputs *)

Module Concrete.
Import Page PageMethods Remote Scripted.
#[local] Existing Instance imports.
#[local] Existing Instance super.

Example falsy_values :
  ToBoolean JUndefined = false /\ ToBoolean (JBool false) = false /\
  ToBoolean JNull = false /\ ToBoolean (JBool true) = true.
Proof. repeat split. Qed.

(** With the recording base class, [Report.load({id: "abc"}, true)]
    returns, and one directive has been posted. *)
Example report_load_abc :
  run (@Report.load super (embedOptions (JStr "abc") JUndefined) true)
      (embedState (embedOptions (JStr "abc") JUndefined)) =
  (inr tt,
   @Embed.Build_EmbedState super (embedOptions (JStr "abc") JUndefined)
     {| configuredUrl := powerbiUrl;
        posted := [JObj [("action", JStr "loadReport"); ("reportId", JStr "abc");
                         ("accessToken", JNull)]] |}
     [Embed.super_load (embedOptions (JStr "abc") JUndefined) true
        (JObj [("action", JStr "loadReport"); ("reportId", JStr "abc");
               ("accessToken", JNull)])]).
Proof. reflexivity. Qed.

(** A channel that rejects with [undefined]: the [catch] clause itself
    throws, on [response.body]. *)
Example setActive_rejected_undefined :
  fst (run (@setActive imports) (state powerbiUrl [Rejected JUndefined])) =
  inl ThrowTypeError.
Proof. reflexivity. Qed.

Lemma rejection_surfaces_body_witness :
  fst (run (@invoke imports GetFilters)
           (state powerbiUrl [Rejected (envelope (JStr "FilterError"))])) =
    inl (ThrowValue (JStr "FilterError")) /\
  requests (snd (run (@invoke imports GetFilters)
                     (state powerbiUrl [Rejected (envelope (JStr "FilterError"))]))) =
    [hpm_get "/report/pages/ReportSection1/filters" (JObj [("uid", JStr "uid-1")]) 7].
Proof.
  apply (@rejection_surfaces_body imports GetFilters
           (state powerbiUrl [Rejected (envelope (JStr "FilterError"))])
           (envelope (JStr "FilterError")) (JStr "FilterError"));
    reflexivity.
Defined.

Lemma capability_gate_witness :
  (run (@getVisuals imports) (state rdlUrl []) =
     (inl (ThrowValue (JStr "This API is currently not supported for RDL reports")),
      state rdlUrl []) /\
   run (@hasLayout imports (JStr "MobilePortrait")) (state rdlUrl []) =
     (inl (ThrowValue (JStr "This API is currently not supported for RDL reports")),
      state rdlUrl []))
  /\
  (requests (snd (run (@getVisuals imports) (state powerbiUrl []))) =
     [hpm_get "/report/pages/ReportSection1/visuals"
              (JObj [("uid", JStr "uid-1")]) 7] /\
   requests (snd (run (@hasLayout imports (JStr "MobilePortrait"))
                      (state powerbiUrl []))) =
     [hpm_get "/report/pages/ReportSection1/layoutTypes/MobilePortrait"
              (JObj [("uid", JStr "uid-1")]) 7] /\
   world (snd (run (@getVisuals imports)
                   (state powerbiUrl [Resolved visualsResponse; Rejected JNull]))) =
     [Rejected JNull] /\
   world (snd (run (@hasLayout imports (JStr "MobilePortrait"))
                   (state powerbiUrl [Resolved (envelope (JBool true)); Rejected JNull]))) =
     [Rejected JNull]).
Proof.
  split.
  - apply (proj1 (@capability_gate imports (state rdlUrl []) (JStr "MobilePortrait"))).
    reflexivity.
  - split; [| split; [| split]].
    + apply (proj2 (@capability_gate imports (state powerbiUrl [])
                      (JStr "MobilePortrait")) eq_refl).
    + apply (proj2 (@capability_gate imports (state powerbiUrl [])
                      (JStr "MobilePortrait")) eq_refl).
    + apply (proj2 (@capability_gate imports
                      (state powerbiUrl [Resolved visualsResponse; Rejected JNull])
                      (JStr "MobilePortrait")) eq_refl).
    + apply (proj2 (@capability_gate imports
                      (state powerbiUrl [Resolved (envelope (JBool true)); Rejected JNull])
                      (JStr "MobilePortrait")) eq_refl).
Defined.

Lemma success_results_witness :
  fst (run (@invoke imports GetVisuals) visualsState) =
    inr (Visuals [describe (page powerbiUrl) visual]) /\
  fst (run (@invoke imports GetFilters)
           (state powerbiUrl [Resolved (envelope (JArr []))])) =
    inr (Value (JArr [])) /\
  fst (run (@invoke imports SetActive)
           (state powerbiUrl [Resolved (envelope JUndefined)])) =
    inr (Value (envelope JUndefined)).
Proof.
  split; [| split].
  - apply (@success_results imports GetVisuals visualsState visualsResponse
             eq_refl eq_refl [visual]).
    reflexivity.
  - apply (@success_results imports GetFilters
             (state powerbiUrl [Resolved (envelope (JArr []))])
             (envelope (JArr [])) eq_refl eq_refl).
    reflexivity.
  - apply (@success_results imports SetActive
             (state powerbiUrl [Resolved (envelope JUndefined)])
             (envelope JUndefined) eq_refl eq_refl).
Defined.

(** C8, as stated, fails for getVisuals: the channel resolves the request
    with an envelope whose body is an array of one visual, and the
    operation resolves with an array of one [VisualDescriptor], which
    carries the page that the visual does not have, not with the body. *)
Lemma getVisuals_resolves_with_descriptors :
  blocked (this visualsState) GetVisuals = false /\
  fst (hpm (request (this visualsState) GetVisuals) (world visualsState)) =
    Resolved visualsResponse /\
  getProp visualsResponse "body" = Some (JArr [JObj visual]) /\
  fst (run (@invoke imports GetVisuals) visualsState) =
    inr (Visuals [describe (page powerbiUrl) visual]) /\
  fst (run (@invoke imports GetVisuals) visualsState) <>
    inr (Value (JArr [JObj visual])) /\
  VisualDescriptor.page (describe (page powerbiUrl) visual) = page powerbiUrl /\
  getProp (JObj visual) "page" = Some JUndefined.
Proof.
  repeat split; try reflexivity.
  intros Heq. discriminate Heq.
Qed.

Lemma load_requires_id_witness :
  (run (@Report.load super (embedOptions JUndefined JUndefined) true)
       (embedState (embedOptions JUndefined JUndefined)) =
     (inl (ThrowError "id must be specified when loading reports on existing elements."),
      embedState (embedOptions JUndefined JUndefined)) /\
   run (@Tile.load super (embedOptions JUndefined JUndefined) true)
       (embedState (embedOptions JUndefined JUndefined)) =
     (inl (ThrowError "id must be specified when loading reports on existing elements."),
      embedState (embedOptions JUndefined JUndefined)))
  /\
  (fst (run (@Report.load super (embedOptions (JStr "abc") JUndefined) true)
            (embedState (embedOptions JUndefined JUndefined))) = inr tt /\
   fst (run (@Tile.load super (embedOptions (JStr "abc") JUndefined) true)
            (embedState (embedOptions JUndefined JUndefined))) = inr tt).
Proof.
  split.
  - apply (proj1 (@load_requires_id super (embedOptions JUndefined JUndefined)
                    (embedState (embedOptions JUndefined JUndefined)))).
    discriminate.
  - destruct (proj2 (@load_requires_id super (embedOptions (JStr "abc") JUndefined)
                       (embedState (embedOptions JUndefined JUndefined)))
                    eq_refl) as [Hreport Htile].
    rewrite Hreport, Htile. split; reflexivity.
Defined.

Lemma getEmbedUrl_filterPane_witness :
  fst (run (@Report.getEmbedUrl super) (embedState (embedOptions JUndefined JUndefined))) =
    inr "https://app.powerbi.com/reportEmbed?reportId=r1&filterPaneEnabled=false" /\
  fst (run (@Report.getEmbedUrl super) (embedState (embedOptions JUndefined (JBool false)))) =
    inr "https://app.powerbi.com/reportEmbed?reportId=r1&filterPaneEnabled=false" /\
  fst (run (@Report.getEmbedUrl super) (embedState (embedOptions JUndefined (JBool true)))) =
    inr "https://app.powerbi.com/reportEmbed?reportId=r1".
Proof.
  split; [| split].
  - apply (proj1 (@getEmbedUrl_filterPane super
                    (embedState (embedOptions JUndefined JUndefined))
                    powerbiUrl eq_refl)).
    reflexivity.
  - apply (proj1 (@getEmbedUrl_filterPane super
                    (embedState (embedOptions JUndefined (JBool false)))
                    powerbiUrl eq_refl)).
    reflexivity.
  - apply (proj2 (@getEmbedUrl_filterPane super
                    (embedState (embedOptions JUndefined (JBool true)))
                    powerbiUrl eq_refl)).
    reflexivity.
Defined.

Lemma load_directive_witness :
  (Embed.calls (snd (run (@Report.load super (embedOptions (JStr "abc") JUndefined) false)
                         (embedState (embedOptions JUndefined JUndefined)))) =
     [Embed.super_load (embedOptions (JStr "abc") JUndefined) false
        (JObj [("action", JStr "loadReport"); ("reportId", JStr "abc");
               ("accessToken", JNull)])]
   /\
   Embed.calls (snd (run (@Tile.load super (embedOptions (JStr "abc") JUndefined) false)
                         (embedState (embedOptions JUndefined JUndefined)))) =
     [Embed.super_load (embedOptions (JStr "abc") JUndefined) false
        (JObj [("action", JStr "loadTile"); ("tileId", JStr "abc");
               ("accessToken", JNull)])])
  /\
  (fst (run (@Report.load super (embedOptions (JStr "abc") JUndefined) false)
            (embedState (embedOptions JUndefined JUndefined))) = inr tt
   /\
   Embed.base (snd (run (@Report.load super (embedOptions (JStr "abc") JUndefined) false)
                        (embedState (embedOptions JUndefined JUndefined)))) =
     {| configuredUrl := powerbiUrl;
        posted := [JObj [("action", JStr "loadReport"); ("reportId", JStr "abc");
                         ("accessToken", JNull)]] |})
  /\
  (fst (run (@Tile.load super (embedOptions (JStr "abc") JUndefined) false)
            (embedState (embedOptions JUndefined JUndefined))) = inr tt
   /\
   Embed.base (snd (run (@Tile.load super (embedOptions (JStr "abc") JUndefined) false)
                        (embedState (embedOptions JUndefined JUndefined)))) =
     {| configuredUrl := powerbiUrl;
        posted := [JObj [("action", JStr "loadTile"); ("tileId", JStr "abc");
                         ("accessToken", JNull)]] |}).
Proof.
  apply (@load_directive super (embedOptions (JStr "abc") JUndefined) false "abc"
           (embedState (embedOptions JUndefined JUndefined))).
  reflexivity.
Defined.

End Concrete.

(** * More of the three files *)

(** ** Strings and property lists *)

Lemma append_cons (c : Ascii.ascii) (a b : string) :
  String c a ++ b = String c (a ++ b).
Proof. reflexivity. Qed.

Lemma length_append (a b : string) :
  String.length (a ++ b) = String.length a + String.length b.
Proof.
  induction a as [| c a IH].
  - reflexivity.
  - rewrite append_cons. cbn [String.length]. rewrite IH. reflexivity.
Qed.

Lemma append_inv_head (p a b : string) : p ++ a = p ++ b -> a = b.
Proof.
  induction p as [| c p IH]; intros Heq.
  - exact Heq.
  - rewrite !append_cons in Heq. injection Heq as Heq. exact (IH Heq).
Qed.

Lemma append_inv_tail (s a b : string) : a ++ s = b ++ s -> a = b.
Proof.
  revert b. induction a as [| c a IH]; intros [| d b] Heq.
  - reflexivity.
  - exfalso. apply (f_equal String.length) in Heq.
    rewrite !length_append in Heq. cbn [String.length] in Heq. lia.
  - exfalso. apply (f_equal String.length) in Heq.
    rewrite !length_append in Heq. cbn [String.length] in Heq. lia.
  - rewrite !append_cons in Heq.
    injection Heq as Hc Heq. rewrite Hc, (IH b Heq). reflexivity.
Qed.

Lemma append_grows (a s : string) : s <> "" -> a ++ s <> a.
Proof.
  intros Hs Heq. apply (f_equal String.length) in Heq.
  rewrite length_append in Heq.
  destruct s as [| c s]; [apply Hs; reflexivity |].
  cbn [String.length] in Heq. lia.
Qed.

Lemma lookup_absent (k : string) (props : list (string * JSValue)) :
  ~ In k (map fst props) -> lookup k props = JUndefined.
Proof.
  induction props as [| [k' v] props IH]; cbn [lookup map fst In]; intros Hnot.
  - reflexivity.
  - destruct (String.eqb_spec k k') as [Heq | Hneq].
    + exfalso. apply Hnot. left. symmetry. exact Heq.
    + apply IH. intros Hin. apply Hnot. right. exact Hin.
Qed.

(** ** Page operations: requests, malformed responses, composition *)

Section PageEdges.
Import Page PageMethods Remote.
Context `{PageImports}.

(** X1. A page operation talks to the channel at most once and never
    retries: it issues no request when the gate stops it and exactly one
    otherwise, also when that request is rejected; the channel's world
    moves by that one call only.  The gate concerns getVisuals and
    hasLayout alone: the other six issue their request on any report. *)
Theorem operation_issues_one_request (op : Operation) (st : PageState) :
  requests (snd (run (invoke op) st)) =
    (requests st ++
     (if gated op && isRDLEmbed (embedUrl (config (report (this st)))) then []
      else [request (this st) op]))%list
  /\
  world (snd (run (invoke op) st)) =
    (if gated op && isRDLEmbed (embedUrl (config (report (this st))))
     then world st
     else snd (hpm (request (this st) op) (world st))).
Proof.
  rewrite run_invoke. unfold blocked.
  destruct (gated op && isRDLEmbed _); cbn [snd issued requests world].
  - rewrite app_nil_r. split; reflexivity.
  - split; reflexivity.
Qed.

(** X2. A request that the channel rejected never comes out as a
    success, whatever value the channel rejected with. *)
Theorem rejected_never_resolves (op : Operation) (st : PageState)
    (response : JSValue) (result : Result) :
  blocked (this st) op = false ->
  fst (hpm (request (this st) op) (world st)) = Rejected response ->
  fst (run (invoke op) st) <> inr result.
Proof.
  intros Hgate Hreject.
  rewrite run_invoke, Hgate. cbv zeta. cbn [fst]. rewrite Hreject.
  unfold rejection. destruct (getProp response "body"); discriminate.
Qed.

(** X3. When the channel rejects with [undefined] or [null], the [catch]
    clause itself fails on [response.body]: the operation rejects with a
    [TypeError]. *)
Theorem rejection_without_properties (op : Operation) (st : PageState)
    (response : JSValue) :
  blocked (this st) op = false ->
  fst (hpm (request (this st) op) (world st)) = Rejected response ->
  nullish response = true ->
  fst (run (invoke op) st) = inl ThrowTypeError.
Proof.
  intros Hgate Hreject Hnull.
  rewrite run_invoke, Hgate. cbv zeta. cbn [fst]. rewrite Hreject.
  destruct response; try discriminate Hnull; reflexivity.
Qed.

(** X4. When the channel rejects with a value that has no [body] (an
    object without that property, or a primitive or an array), the
    operation rejects with [undefined]. *)
Theorem rejection_without_body (op : Operation) (st : PageState)
    (response : JSValue) :
  blocked (this st) op = false ->
  fst (hpm (request (this st) op) (world st)) = Rejected response ->
  match response with
  | JUndefined | JNull => False
  | JObj props => ~ In "body" (map fst props)
  | JBool _ | JNum _ | JStr _ | JArr _ => True
  end ->
  fst (run (invoke op) st) = inl (ThrowValue JUndefined).
Proof.
  intros Hgate Hreject Hbody.
  rewrite run_invoke, Hgate. cbv zeta. cbn [fst]. rewrite Hreject.
  unfold rejection.
  destruct response; try contradiction; cbn [getProp]; try reflexivity.
  rewrite (lookup_absent _ _ Hbody). reflexivity.
Qed.

(** X5. When the channel resolves with [undefined] or [null]: the four
    writes resolve with that value; the reads and delete, which go on to
    [response.body], reject with [undefined] (the [body] of the
    [TypeError] their own [try] block raised). *)
Theorem resolved_without_properties (op : Operation) (st : PageState)
    (response : JSValue) :
  blocked (this st) op = false ->
  fst (hpm (request (this st) op) (world st)) = Resolved response ->
  nullish response = true ->
  fst (run (invoke op) st) =
  match op with
  | SetFilters _ | RemoveFilters | SetActive | SetDisplayName _ =>
      inr (Value response)
  | GetFilters | Delete | GetVisuals | HasLayout _ =>
      inl (ThrowValue JUndefined)
  end.
Proof.
  intros Hgate Hresolve Hnull.
  rewrite run_invoke, Hgate. cbv zeta. cbn [fst]. rewrite Hresolve.
  destruct response; try discriminate Hnull; destruct op; reflexivity.
Qed.

Lemma descriptors_nullish (page : Page) (visuals : list JSValue) :
  existsb nullish visuals = true -> descriptors page visuals = None.
Proof.
  induction visuals as [| visual rest IH]; cbn [existsb descriptors].
  - discriminate.
  - intros Hex. apply orb_true_iff in Hex. destruct Hex as [Hnull | Hrest].
    + destruct visual; try discriminate Hnull; reflexivity.
    + rewrite (IH Hrest). destruct (descriptor page visual); reflexivity.
Qed.

Lemma descriptors_total (page : Page) (visuals : list JSValue) :
  existsb nullish visuals = false ->
  exists ds,
    descriptors page visuals = Some ds /\
    Forall2 (fun visual d => descriptor page visual = Some d) visuals ds /\
    Forall (fun d => VisualDescriptor.page d = page) ds.
Proof.
  induction visuals as [| visual rest IH]; cbn [existsb descriptors].
  - intros _. exists []. repeat constructor.
  - intros Hex. apply orb_false_iff in Hex. destruct Hex as [Hnull Hrest].
    destruct (IH Hrest) as (ds & Hds & Hall & Hpage). rewrite Hds.
    assert (Hd : exists d, descriptor page visual = Some d /\
                           VisualDescriptor.page d = page).
    { destruct visual; try discriminate Hnull; eexists; split; reflexivity. }
    destruct Hd as (d & Hd & Hp). rewrite Hd.
    exists (d :: ds). split; [reflexivity |].
    split; constructor; assumption.
Qed.

(** X6. An array body with an [undefined] or [null] element makes
    getVisuals reject with [undefined], although the request succeeded:
    reading [visual.name] throws inside the [try]. *)
Theorem getVisuals_nullish_element (st : PageState) (response : JSValue)
    (visuals : list JSValue) :
  isRDLEmbed (embedUrl (config (report (this st)))) = false ->
  fst (hpm (request (this st) GetVisuals) (world st)) = Resolved response ->
  getProp response "body" = Some (JArr visuals) ->
  existsb nullish visuals = true ->
  fst (run getVisuals st) = inl (ThrowValue JUndefined).
Proof.
  intros Hgate Hresolve Hbody Hex.
  rewrite run_getVisuals, Hgate. cbv zeta. cbn [fst]. rewrite Hresolve.
  unfold visualsOf. rewrite Hbody, (descriptors_nullish _ _ Hex). reflexivity.
Qed.

(** X7. On an array body without [undefined] or [null] elements,
    getVisuals resolves with one descriptor per element, in the order of
    the body, each bound to this page. *)
Theorem getVisuals_one_descriptor_each (st : PageState) (response : JSValue)
    (visuals : list JSValue) :
  isRDLEmbed (embedUrl (config (report (this st)))) = false ->
  fst (hpm (request (this st) GetVisuals) (world st)) = Resolved response ->
  getProp response "body" = Some (JArr visuals) ->
  existsb nullish visuals = false ->
  exists ds,
    fst (run getVisuals st) = inr ds /\
    length ds = length visuals /\
    Forall2 (fun visual d => descriptor (this st) visual = Some d) visuals ds /\
    Forall (fun d => VisualDescriptor.page d = this st) ds.
Proof.
  intros Hgate Hresolve Hbody Hex.
  destruct (descriptors_total (this st) visuals Hex) as (ds & Hds & Hall & Hpage).
  exists ds.
  rewrite run_getVisuals, Hgate. cbv zeta. cbn [fst]. rewrite Hresolve.
  unfold visualsOf. rewrite Hbody, Hds.
  split; [reflexivity |]. split; [| split; assumption].
  symmetry. exact (Forall2_length Hall).
Qed.

(** X8. Two operations one after the other, whatever the first came to:
    the second builds its request from the same page, so the trace is the
    first's request followed by the second's. *)
Theorem operations_in_sequence (op1 op2 : Operation) (st : PageState) :
  requests (snd (run (invoke op2) (snd (run (invoke op1) st)))) =
    (requests st
     ++ (if blocked (this st) op1 then [] else [request (this st) op1])
     ++ (if blocked (this st) op2 then [] else [request (this st) op2]))%list.
Proof.
  rewrite (run_invoke op1 st).
  destruct (blocked (this st) op1) eqn:Hgate1; cbv zeta; cbn [snd].
  - rewrite run_invoke.
    destruct (blocked (this st) op2); cbn [snd issued requests];
      [rewrite !app_nil_r | ]; reflexivity.
  - rewrite run_invoke. cbn [issued this].
    destruct (blocked (this st) op2); cbn [snd issued requests world this].
    + rewrite app_nil_r. reflexivity.
    + rewrite <- app_assoc. reflexivity.
Qed.

(** X9. Of a page, the operations read the report and the name only: two
    pages constructed with the same report and name and any other
    arguments issue the same request, leave the channel in the same
    world, and (getVisuals apart, whose descriptors hold the page itself)
    settle alike. *)
Theorem operations_read_report_and_name (op : Operation)
    (report : IReportNode) (name : string)
    (displayName1 isActive1 visibility1 defaultSize1 defaultDisplayOption1 : JSValue)
    (displayName2 isActive2 visibility2 defaultSize2 defaultDisplayOption2 : JSValue)
    (world : World) (requests : list HpmCall) :
  let st1 := {| this := constructor report name displayName1 isActive1 visibility1
                          defaultSize1 defaultDisplayOption1;
                PageMethods.world := world; PageMethods.requests := requests |} in
  let st2 := {| this := constructor report name displayName2 isActive2 visibility2
                          defaultSize2 defaultDisplayOption2;
                PageMethods.world := world; PageMethods.requests := requests |} in
  PageMethods.requests (snd (run (invoke op) st1)) =
    PageMethods.requests (snd (run (invoke op) st2)) /\
  PageMethods.world (snd (run (invoke op) st1)) =
    PageMethods.world (snd (run (invoke op) st2)) /\
  match op with
  | GetVisuals => True
  | _ => fst (run (invoke op) st1) = fst (run (invoke op) st2)
  end.
Proof.
  intros st1 st2. subst st1 st2. rewrite !run_invoke.
  unfold blocked. cbn [this constructor Page.report config].
  destruct (gated op && isRDLEmbed _).
  - repeat split. destruct op; exact I || reflexivity.
  - cbv zeta. split; [| split].
    + destruct op; reflexivity.
    + destruct op; reflexivity.
    + destruct op; exact I || reflexivity.
Qed.

(** X10. The request tells the page and the report apart: when two pages
    (neither stopped by the gate) issue the same request for an operation,
    they have the same name, and their reports the same unique id and the
    same iframe window.  The name enters the route as it is. *)
Theorem request_identifies_page (op : Operation) (st1 st2 : PageState) :
  blocked (this st1) op = false ->
  blocked (this st2) op = false ->
  requests st1 = requests st2 ->
  requests (snd (run (invoke op) st1)) = requests (snd (run (invoke op) st2)) ->
  name (this st1) = name (this st2) /\
  uniqueId (config (report (this st1))) = uniqueId (config (report (this st2))) /\
  contentWindow (iframe (report (this st1))) =
    contentWindow (iframe (report (this st2))).
Proof.
  intros Hgate1 Hgate2 Hreqs Htrace.
  rewrite !run_invoke, Hgate1, Hgate2 in Htrace.
  cbv zeta in Htrace. cbn [snd issued requests] in Htrace.
  rewrite Hreqs in Htrace. apply app_inv_head in Htrace.
  injection Htrace as Hcall.
  destruct op; cbn [request] in Hcall; injection Hcall as Hroute Huid Hwindow;
    (split; [| split; assumption]).
  - apply append_inv_head in Hroute. exact (append_inv_tail _ _ _ Hroute).
  - apply append_inv_head in Hroute. exact (append_inv_tail _ _ _ Hroute).
  - apply append_inv_head in Hroute. exact (append_inv_tail _ _ _ Hroute).
  - exact (append_inv_head _ _ _ Hroute).
  - exact Hroute.
  - apply append_inv_head in Hroute. exact (append_inv_tail _ _ _ Hroute).
  - apply append_inv_head in Hroute. exact (append_inv_tail _ _ _ Hroute).
  - apply append_inv_head in Hroute. exact (append_inv_tail _ _ _ Hroute).
Qed.

End PageEdges.

(** ** Reports and tiles: the default load, errors of the base class, URLs *)

Section EmbedEdges.
Import Embed.
Context `{EmbedSuper}.

(** X11. With requireId = false (its default) neither load checks the id:
    whatever [options.id] is, even [undefined], the call goes to
    [super.load] once, with a directive whose reportId (tileId) is that
    value exactly, and the method ends as [super.load] ends. *)
Theorem load_without_requireId (opts : IEmbedOptions) (st : EmbedState) :
  (fst (run (Report.load opts false) st) =
     fst (Embed_load (options st) opts false
            (JObj [("action", JStr "loadReport"); ("reportId", id opts);
                   ("accessToken", JNull)]) (base st)) /\
   calls (snd (run (Report.load opts false) st)) =
     (calls st ++
      [super_load opts false
         (JObj [("action", JStr "loadReport"); ("reportId", id opts);
                ("accessToken", JNull)])])%list)
  /\
  (fst (run (Tile.load opts false) st) =
     fst (Embed_load (options st) opts false
            (JObj [("action", JStr "loadTile"); ("tileId", id opts);
                   ("accessToken", JNull)]) (base st)) /\
   calls (snd (run (Tile.load opts false) st)) =
     (calls st ++
      [super_load opts false
         (JObj [("action", JStr "loadTile"); ("tileId", id opts);
                ("accessToken", JNull)])])%list).
Proof.
  rewrite run_Report_load, run_Tile_load. cbn [andb].
  rewrite !run_superLoad. repeat split.
Qed.

(** X12. Neither load catches: when the guard lets the call through
    (requireId is false, or the id is a string) and [super.load] throws,
    the method throws the same, and the base object is left as
    [super.load] left it. *)
Theorem load_propagates_base_error (opts : IEmbedOptions) (requireId : bool)
    (st : EmbedState) (e : Thrown) :
  requireId = false \/ typeof (id opts) = "string" ->
  (fst (Embed_load (options st) opts requireId
          (JObj [("action", JStr "loadReport"); ("reportId", id opts);
                 ("accessToken", JNull)]) (base st)) = inl e ->
   fst (run (Report.load opts requireId) st) = inl e /\
   base (snd (run (Report.load opts requireId) st)) =
     snd (Embed_load (options st) opts requireId
            (JObj [("action", JStr "loadReport"); ("reportId", id opts);
                   ("accessToken", JNull)]) (base st)))
  /\
  (fst (Embed_load (options st) opts requireId
          (JObj [("action", JStr "loadTile"); ("tileId", id opts);
                 ("accessToken", JNull)]) (base st)) = inl e ->
   fst (run (Tile.load opts requireId) st) = inl e /\
   base (snd (run (Tile.load opts requireId) st)) =
     snd (Embed_load (options st) opts requireId
            (JObj [("action", JStr "loadTile"); ("tileId", id opts);
                   ("accessToken", JNull)]) (base st))).
Proof.
  intros Hguard.
  assert (Hpass : requireId && negb (String.eqb (typeof (id opts)) "string") = false).
  { destruct Hguard as [-> | Hid]; [reflexivity |].
    rewrite Hid, String.eqb_refl. apply andb_false_r. }
  rewrite run_Report_load, run_Tile_load, Hpass, !run_superLoad.
  split; intros Hthrow; cbn [fst snd base]; rewrite Hthrow; split; reflexivity.
Qed.

(** X13. Report.getEmbedUrl asks the base class once.  When that call
    throws, the method throws the same and appends nothing; it never calls
    [super.load]. *)
Theorem Report_getEmbedUrl_one_super_call (st : EmbedState) :
  calls (snd (run Report.getEmbedUrl st)) = (calls st ++ [super_getEmbedUrl])%list /\
  base (snd (run Report.getEmbedUrl st)) =
    snd (Embed_getEmbedUrl (options st) (base st)) /\
  (forall e, fst (Embed_getEmbedUrl (options st) (base st)) = inl e ->
             fst (run Report.getEmbedUrl st) = inl e).
Proof.
  unfold Report.getEmbedUrl. rewrite run_bind, run_superGetEmbedUrl.
  destruct (fst (Embed_getEmbedUrl (options st) (base st))) as [e | url].
  - repeat split. intros e' He. exact He.
  - rewrite run_bind, run_gets. cbn [options].
    destruct (negb _); repeat split; intros e He; discriminate He.
Qed.

(** X15. Besides [false] and [undefined], the values [null], [0] and
    the empty string make Report.getEmbedUrl append
    "&filterPaneEnabled=false"; [true], every non-empty string (the string
    "false" too), every non-zero number, every array and every object
    leave the URL as the base class gave it. *)
Theorem filterPane_other_values (st : EmbedState) (baseUrl : string) :
  fst (Embed_getEmbedUrl (options st) (base st)) = inr baseUrl ->
  (In (filterPaneEnabled (options st))
      [JUndefined; JNull; JBool false; JNum 0; JStr ""] ->
   fst (run Report.getEmbedUrl st) = inr (baseUrl ++ "&filterPaneEnabled=false"))
  /\
  (match filterPaneEnabled (options st) with
   | JBool b => b = true
   | JNum n => n <> 0%Z
   | JStr s => s <> ""
   | JArr _ | JObj _ => True
   | JUndefined | JNull => False
   end ->
   fst (run Report.getEmbedUrl st) = inr baseUrl).
Proof.
  intros Hbase. unfold Report.getEmbedUrl.
  rewrite run_bind, run_superGetEmbedUrl, Hbase, run_bind, run_gets.
  cbn [options fst].
  split.
  - intros Hin.
    repeat (destruct Hin as [<- | Hin]; [reflexivity |]). contradiction.
  - destruct (filterPaneEnabled (options st)) as [| | b | n | s | l | props];
      intros Hv; try contradiction; cbn [ToBoolean].
    + rewrite Hv. reflexivity.
    + apply Z.eqb_neq in Hv. rewrite Hv. reflexivity.
    + apply String.eqb_neq in Hv. rewrite Hv. reflexivity.
    + reflexivity.
    + reflexivity.
Qed.

End EmbedEdges.

(** ** These properties at concrete inputs *)

Module ConcreteMore.
Import Page PageMethods Remote Scripted.
#[local] Existing Instance imports.

Lemma rejected_never_resolves_witness :
  fst (run (@invoke imports SetActive) (state powerbiUrl [Rejected (JNum 500)])) <>
  inr (Value (JNum 500)).
Proof.
  apply (@rejected_never_resolves imports SetActive
           (state powerbiUrl [Rejected (JNum 500)]) (JNum 500) (Value (JNum 500)));
    reflexivity.
Defined.

Lemma rejection_without_properties_witness :
  fst (run (@invoke imports Delete) (state powerbiUrl [Rejected JNull])) =
  inl ThrowTypeError.
Proof.
  apply (@rejection_without_properties imports Delete
           (state powerbiUrl [Rejected JNull]) JNull);
    reflexivity.
Defined.

Lemma rejection_without_body_witness :
  fst (run (@invoke imports (SetFilters (JArr [])))
           (state powerbiUrl [Rejected (JObj [("statusCode", JNum 500)])])) =
  inl (ThrowValue JUndefined).
Proof.
  apply (@rejection_without_body imports (SetFilters (JArr []))
           (state powerbiUrl [Rejected (JObj [("statusCode", JNum 500)])])
           (JObj [("statusCode", JNum 500)])).
  - reflexivity.
  - reflexivity.
  - cbn. intros [Hkey | []]. discriminate Hkey.
Defined.

Lemma resolved_without_properties_witness :
  fst (run (@invoke imports GetFilters) (state powerbiUrl [Resolved JUndefined])) =
    inl (ThrowValue JUndefined) /\
  fst (run (@invoke imports (SetDisplayName "Summary"))
           (state powerbiUrl [Resolved JUndefined])) =
    inr (Value JUndefined).
Proof.
  split.
  - apply (@resolved_without_properties imports GetFilters
             (state powerbiUrl [Resolved JUndefined]) JUndefined);
      reflexivity.
  - apply (@resolved_without_properties imports (SetDisplayName "Summary")
             (state powerbiUrl [Resolved JUndefined]) JUndefined);
      reflexivity.
Defined.

Lemma getVisuals_body_not_array_witness :
  fst (run (@getVisuals imports)
           (state powerbiUrl [Resolved (envelope (JStr "none"))])) =
  inl (ThrowValue JUndefined).
Proof.
  apply (@getVisuals_body_not_array imports
           (state powerbiUrl [Resolved (envelope (JStr "none"))])
           (envelope (JStr "none"))).
  - reflexivity.
  - reflexivity.
  - intros visuals Hbody. discriminate Hbody.
Defined.

Lemma getVisuals_nullish_element_witness :
  fst (run (@getVisuals imports)
           (state powerbiUrl [Resolved (envelope (JArr [JObj visual; JNull]))])) =
  inl (ThrowValue JUndefined).
Proof.
  apply (@getVisuals_nullish_element imports
           (state powerbiUrl [Resolved (envelope (JArr [JObj visual; JNull]))])
           (envelope (JArr [JObj visual; JNull])) [JObj visual; JNull]);
    reflexivity.
Defined.

Lemma getVisuals_one_descriptor_each_witness :
  exists ds,
    fst (run (@getVisuals imports)
             (state powerbiUrl [Resolved (envelope (JArr [JObj visual; JStr "x"]))])) =
      inr ds /\
    length ds = 2 /\
    Forall2 (fun visual d => descriptor (page powerbiUrl) visual = Some d)
            [JObj visual; JStr "x"] ds /\
    Forall (fun d => VisualDescriptor.page d = page powerbiUrl) ds.
Proof.
  apply (@getVisuals_one_descriptor_each imports
           (state powerbiUrl [Resolved (envelope (JArr [JObj visual; JStr "x"]))])
           (envelope (JArr [JObj visual; JStr "x"])) [JObj visual; JStr "x"]);
    reflexivity.
Defined.

Lemma request_identifies_page_witness :
  name (this (state powerbiUrl [])) =
    name (this (state rdlUrl [Rejected JNull])) /\
  uniqueId (config (report (this (state powerbiUrl [])))) =
    uniqueId (config (report (this (state rdlUrl [Rejected JNull])))) /\
  contentWindow (iframe (report (this (state powerbiUrl [])))) =
    contentWindow (iframe (report (this (state rdlUrl [Rejected JNull])))).
Proof.
  apply (@request_identifies_page imports GetFilters
           (state powerbiUrl []) (state rdlUrl [Rejected JNull]));
    reflexivity.
Defined.

Lemma load_propagates_base_error_witness :
  (fst (run (@Report.load throwing (embedOptions (JStr "abc") JUndefined) true)
            (throwingState (embedOptions JUndefined JUndefined))) =
     inl (ThrowError "no iframe") /\
   Embed.base (snd (run (@Report.load throwing (embedOptions (JStr "abc") JUndefined) true)
                        (throwingState (embedOptions JUndefined JUndefined)))) = tt)
  /\
  (fst (run (@Tile.load throwing (embedOptions JUndefined JUndefined) false)
            (throwingState (embedOptions JUndefined JUndefined))) =
     inl (ThrowError "no iframe") /\
   Embed.base (snd (run (@Tile.load throwing (embedOptions JUndefined JUndefined) false)
                        (throwingState (embedOptions JUndefined JUndefined)))) = tt).
Proof.
  split.
  - apply (proj1 (@load_propagates_base_error throwing
                    (embedOptions (JStr "abc") JUndefined) true
                    (throwingState (embedOptions JUndefined JUndefined))
                    (ThrowError "no iframe") (or_intror eq_refl))).
    reflexivity.
  - apply (proj2 (@load_propagates_base_error throwing
                    (embedOptions JUndefined JUndefined) false
                    (throwingState (embedOptions JUndefined JUndefined))
                    (ThrowError "no iframe") (or_introl eq_refl))).
    reflexivity.
Defined.

Lemma Report_getEmbedUrl_one_super_call_witness :
  fst (run (@Report.getEmbedUrl throwing)
           (throwingState (embedOptions JUndefined JUndefined))) =
  inl (ThrowError "no embed url").
Proof.
  apply (proj2 (proj2 (@Report_getEmbedUrl_one_super_call throwing
                         (throwingState (embedOptions JUndefined JUndefined))))).
  reflexivity.
Defined.

Lemma filterPane_other_values_witness :
  fst (run (@Report.getEmbedUrl super) (embedState (embedOptions JUndefined JNull))) =
    inr "https://app.powerbi.com/reportEmbed?reportId=r1&filterPaneEnabled=false" /\
  fst (run (@Report.getEmbedUrl super)
           (embedState (embedOptions JUndefined (JStr "false")))) =
    inr "https://app.powerbi.com/reportEmbed?reportId=r1".
Proof.
  split.
  - apply (proj1 (@filterPane_other_values super
                    (embedState (embedOptions JUndefined JNull)) powerbiUrl eq_refl)).
    right. left. reflexivity.
  - apply (proj2 (@filterPane_other_values super
                    (embedState (embedOptions JUndefined (JStr "false")))
                    powerbiUrl eq_refl)).
    cbn. discriminate.
Defined.

End ConcreteMore.
